(** * ReportGenerator (refactored): role-based report formatting

    Shallow embedding of [src/src/ReportGenerator.refactored.js] and the
    properties of its specification.

    Modelling conventions.
    - A JavaScript string is the sequence of its UTF-16 code units
      ([Js.jsstring], a list of [N]).  String literals of the source are
      written with [Js.str] on their ASCII parts; the line feed, the double
      quote and the two accented letters of the HTML header are given by
      their code units.
    - Numbers ([id], [value], the total) are integers ([Z]).  JavaScript
      adds doubles: on safe integers (magnitude at most [MAX_SAFE_INTEGER])
      whose sum is a safe integer the addition is the exact one, and the
      numeral of a safe integer is its plain decimal numeral.  A property
      that depends on the value of a total therefore carries [sumsExactly],
      which says that every value added and every running total of the
      reduce is a safe integer; the other properties compare outputs of the
      program with each other and need no such condition.
    - An object is a record.  The property [priority] may be absent on an
      item, so it is an [option bool]; [None] is JavaScript's [undefined].
    - Arrays are lists; [map], [filter] and [reduce] build new arrays and the
      program mutates nothing, so methods are functions of [this] and their
      arguments. *)

From Stdlib Require Import String Ascii DecimalString ZArith NArith List Bool Lia.
From Stdlib Require DecimalPos DecimalZ.
Import ListNotations.
Open Scope Z_scope.

(** ** The fragment of JavaScript strings the program uses *)

Module Js.

Definition jsstring : Type := list N.

(** Code units of an ASCII literal. *)
Definition str (s : string) : jsstring :=
  map N_of_ascii (list_ascii_of_string s).

Definition LF : N := 10.
Definition QUOT : N := 34.
Definition o_acute : N := 243.
Definition a_acute : N := 225.

(** [a === b] on two strings: same code units. *)
Fixpoint strictEq (a b : jsstring) : bool :=
  match a, b with
  | [], [] => true
  | x :: a', y :: b' => N.eqb x y && strictEq a' b'
  | _, _ => false
  end.

(** [`${n}`] for an integer [n]: the plain decimal numeral, which is what
    JavaScript writes for an integer below 1e21 in magnitude (every safe
    integer is). *)
Definition numberToString (n : Z) : jsstring :=
  str (NilZero.string_of_int (Z.to_int n)).

(** ECMAScript WhiteSpace and LineTerminator code points, the characters
    [String.prototype.trim] strips. *)
Definition isWhiteSpace (c : N) : bool :=
  ((9 <=? c) && (c <=? 13) || (c =? 32) || (c =? 160) || (c =? 5760)
   || (8192 <=? c) && (c <=? 8202) || (c =? 8232) || (c =? 8233)
   || (c =? 8239) || (c =? 8287) || (c =? 12288) || (c =? 65279))%N.

Fixpoint trimStart (s : jsstring) : jsstring :=
  match s with
  | [] => []
  | c :: s' => if isWhiteSpace c then trimStart s' else s
  end.

Definition trimEnd (s : jsstring) : jsstring := rev (trimStart (rev s)).

Definition trim (s : jsstring) : jsstring := trimEnd (trimStart s).

(** [item.priority ? a : b] tests the truthiness of a possibly absent
    boolean property. *)
Definition truthy (p : option bool) : bool :=
  match p with
  | Some true => true
  | _ => false
  end.

Fixpoint startsWith (s sub : jsstring) : bool :=
  match sub, s with
  | [], _ => true
  | y :: sub', x :: s' => N.eqb x y && startsWith s' sub'
  | _ :: _, [] => false
  end.

(** [s.includes(sub)] *)
Fixpoint includes (s sub : jsstring) : bool :=
  startsWith s sub ||
  match s with
  | [] => false
  | _ :: s' => includes s' sub
  end.

End Js.

Import Js.

(** ** Data model *)

Module User.
Record t : Type := mk { name : jsstring; role : jsstring }.
End User.

Module Item.
Record t : Type := mk {
  id : Z;
  name : jsstring;
  value : Z;
  priority : option bool
}.

(** An item as the data model has it: no [priority] property. *)
Definition plain (id : Z) (name : jsstring) (value : Z) : t :=
  mk id name value None.

(** The item without its [priority] property. *)
Definition erase (item : t) : t :=
  mk (id item) (name item) (value item) None.
End Item.

(** ** The class *)

Module ReportGenerator.

(** [constructor(database) { this.db = database; }] *)
Record t (Database : Type) : Type := new { db : Database }.
Arguments new {Database} _.
Arguments db {Database} _.

Definition USER_VALUE_LIMIT : Z := 500.
Definition ADMIN_PRIORITY_LIMIT : Z := 1000.

Section Methods.
Context {Database : Type}.

Definition _getProcessedItems (this : t Database) (user : User.t)
    (items : list Item.t) : list Item.t :=
  if strictEq (User.role user) (str "ADMIN") then
    map (fun item =>
           Item.mk (Item.id item) (Item.name item) (Item.value item)
                   (Some (Item.value item >? ADMIN_PRIORITY_LIMIT)))
        items
  else if strictEq (User.role user) (str "USER") then
    filter (fun item => Item.value item <=? USER_VALUE_LIMIT) items
  else
    [].

(** One pass of the CSV loop body: [report += `${id},${name},${value},${user.name}\n`]. *)
Definition csvRow (user : User.t) (item : Item.t) : jsstring :=
  numberToString (Item.id item) ++ str "," ++ Item.name item ++ str ","
  ++ numberToString (Item.value item) ++ str "," ++ User.name user ++ [LF].

Definition _generateCsvReport (this : t Database) (user : User.t)
    (items : list Item.t) (total : Z) : jsstring :=
  let report := str "ID,NOME,VALOR,USUARIO" ++ [LF] in
  let report :=
    fold_left (fun report item => report ++ csvRow user item) items report in
  let report := report ++ [LF] ++ str "Total,," ++ [LF] in
  let report := report ++ numberToString total ++ str ",," ++ [LF] in
  trim report.

Definition boldStyle : jsstring :=
  str "style=" ++ [QUOT] ++ str "font-weight:bold;" ++ [QUOT].

(** One pass of the HTML loop body. *)
Definition htmlRow (item : Item.t) : jsstring :=
  let style := if truthy (Item.priority item) then boldStyle else [] in
  str "<tr " ++ style ++ str "><td>" ++ numberToString (Item.id item)
  ++ str "</td><td>" ++ Item.name item
  ++ str "</td><td>" ++ numberToString (Item.value item)
  ++ str "</td></tr>" ++ [LF].

Definition _generateHtmlReport (this : t Database) (user : User.t)
    (items : list Item.t) (total : Z) : jsstring :=
  let report := str "<html><body>" ++ [LF] in
  let report :=
    report ++ str "<h1>Relat" ++ [o_acute] ++ str "rio</h1>" ++ [LF] in
  let report :=
    report ++ str "<h2>Usu" ++ [a_acute] ++ str "rio: " ++ User.name user
    ++ str "</h2>" ++ [LF] in
  let report := report ++ str "<table>" ++ [LF] in
  let report :=
    report ++ str "<tr><th>ID</th><th>Nome</th><th>Valor</th></tr>" ++ [LF] in
  let report :=
    fold_left (fun report item => report ++ htmlRow item) items report in
  let report := report ++ str "</table>" ++ [LF] in
  let report :=
    report ++ str "<h3>Total: " ++ numberToString total ++ str "</h3>" ++ [LF] in
  let report := report ++ str "</body></html>" ++ [LF] in
  trim report.

(** The reduce adds integers; JavaScript's addition of doubles agrees with
    it as long as the values and the running totals are safe integers. *)
Definition generateReport (this : t Database) (reportType : jsstring)
    (user : User.t) (items : list Item.t) : jsstring :=
  let processedItems := _getProcessedItems this user items in
  let total :=
    fold_left (fun sum item => sum + Item.value item) processedItems 0 in
  if strictEq reportType (str "CSV") then
    _generateCsvReport this user processedItems total
  else if strictEq reportType (str "HTML") then
    _generateHtmlReport this user processedItems total
  else
    [].

End Methods.

End ReportGenerator.

Import ReportGenerator.

(** ** Notions used to state the properties *)

(** Sum of [value] over a sequence of items, as the specification words the
    total. *)
Fixpoint sumValues (items : list Item.t) : Z :=
  match items with
  | [] => 0
  | item :: rest => Item.value item + sumValues rest
  end.

(** [Number.MAX_SAFE_INTEGER], 2^53 - 1. *)
Definition MAX_SAFE_INTEGER : Z := 9007199254740991.

(** [Number.isSafeInteger(n)] for an integer [n]. *)
Definition isSafeInteger (n : Z) : bool :=
  (- MAX_SAFE_INTEGER <=? n) && (n <=? MAX_SAFE_INTEGER).

(** The reduce started at [acc] adds safe integers only and every running
    total it reaches is a safe integer: each of its double additions is
    exact. *)
Fixpoint exactReduce (acc : Z) (items : list Item.t) : bool :=
  match items with
  | [] => true
  | item :: rest =>
      isSafeInteger (Item.value item)
      && isSafeInteger (acc + Item.value item)
      && exactReduce (acc + Item.value item) rest
  end.

(** The total of these items, as [generateReport] reduces it from 0, is
    computed exactly. *)
Definition sumsExactly (items : list Item.t) : bool := exactReduce 0 items.

(** [Subseq xs ys]: [xs] is [ys] with some elements removed, order kept. *)
Inductive Subseq {A : Type} : list A -> list A -> Prop :=
| Subseq_nil : Subseq [] []
| Subseq_skip : forall x xs ys, Subseq xs ys -> Subseq xs (x :: ys)
| Subseq_keep : forall x xs ys, Subseq xs ys -> Subseq (x :: xs) (x :: ys).

(** [sub] occurs in [s] as a contiguous substring. *)
Definition contains (s sub : jsstring) : Prop :=
  exists pre post, s = pre ++ sub ++ post.

(** The item as the ADMIN branch annotates it. *)
Definition annotated (item : Item.t) : Item.t :=
  Item.mk (Item.id item) (Item.name item) (Item.value item)
          (Some (Item.value item >? 1000)).

(** The visibility test of the USER branch. *)
Definition withinUserLimit (item : Item.t) : bool := Item.value item <=? 500.

(** The CSV text for a sequence of rows and a total, after trimming. *)
Definition csvText (user : User.t) (rows : list Item.t) (total : Z) : jsstring :=
  str "ID,NOME,VALOR,USUARIO" ++ [LF]
  ++ concat (map (csvRow user) rows)
  ++ [LF] ++ str "Total,," ++ [LF]
  ++ numberToString total ++ str ",,".

Definition htmlHead (user : User.t) : jsstring :=
  str "<html><body>" ++ [LF]
  ++ str "<h1>Relat" ++ [o_acute] ++ str "rio</h1>" ++ [LF]
  ++ str "<h2>Usu" ++ [a_acute] ++ str "rio: " ++ User.name user
  ++ str "</h2>" ++ [LF]
  ++ str "<table>" ++ [LF]
  ++ str "<tr><th>ID</th><th>Nome</th><th>Valor</th></tr>" ++ [LF].

(** The HTML text for a sequence of rows and a total, after trimming. *)
Definition htmlText (user : User.t) (rows : list Item.t) (total : Z) : jsstring :=
  htmlHead user
  ++ concat (map htmlRow rows)
  ++ str "</table>" ++ [LF]
  ++ str "<h3>Total: " ++ numberToString total ++ str "</h3>" ++ [LF]
  ++ str "</body></html>".

(** ** The scenarios of the specification *)

Definition alice : User.t := User.mk (str "Alice") (str "USER").
Definition bob : User.t := User.mk (str "Bob") (str "ADMIN").
Definition guest : User.t := User.mk (str "Eve") (str "GUEST").

Definition itemA : Item.t := Item.plain 1 (str "A") 100.
Definition itemB : Item.t := Item.plain 2 (str "B") 600.
Definition itemX : Item.t := Item.plain 1 (str "X") 1500.

(** ** Notions used by the further properties *)

Definition COMMA : N := 44.

(** [c] does not occur in [s]. *)
Definition lacks (c : N) (s : jsstring) : Prop := ~ In c s.

(** Number of line feeds of a text; its lines are one more. *)
Definition lineFeeds (s : jsstring) : nat := length (filter (N.eqb LF) s).

(** The code units of a decimal numeral: the minus sign and the digits. *)
Definition isNumeralUnit (c : N) : bool :=
  ((c =? 45) || (48 <=? c) && (c <=? 57))%N.

(** A name that cannot be mistaken for a field or row separator. *)
Definition plainName (s : jsstring) : Prop := lacks COMMA s /\ lacks LF s.

(** ** The model on small inputs *)

Example numberToString_samples :
  numberToString 0 = str "0"
  /\ numberToString 1500 = str "1500"
  /\ numberToString (-42) = str "-42".
Proof. repeat split. Qed.

Example trim_sample :
  trim ([LF; 32%N] ++ str "a b" ++ [9%N; 160%N; LF]) = str "a b".
Proof. reflexivity. Qed.

Example processed_samples :
  _getProcessedItems (new tt) alice [itemA; itemB; itemX] = [itemA]
  /\ _getProcessedItems (new tt) bob [itemA; itemX]
     = [Item.mk 1 (str "A") 100 (Some false);
        Item.mk 1 (str "X") 1500 (Some true)]
  /\ _getProcessedItems (new tt) guest [itemA; itemB; itemX] = [].
Proof. repeat split. Qed.

(** The limits are inclusive for USER and exclusive for the ADMIN flag. *)
Example limits_samples :
  _getProcessedItems (new tt) alice
    [Item.plain 1 (str "p") 500; Item.plain 2 (str "q") 501]
  = [Item.plain 1 (str "p") 500]
  /\ map Item.priority
       (_getProcessedItems (new tt) bob
          [Item.plain 1 (str "p") 1000; Item.plain 2 (str "q") 1001])
     = [Some false; Some true].
Proof. repeat split. Qed.

Example admin_csv_sample :
  generateReport (new tt) (str "CSV") bob [itemA; itemX]
  = str "ID,NOME,VALOR,USUARIO" ++ [LF]
    ++ str "1,A,100,Bob" ++ [LF]
    ++ str "1,X,1500,Bob" ++ [LF]
    ++ [LF] ++ str "Total,," ++ [LF]
    ++ str "1600,,".
Proof. reflexivity. Qed.

(** For Alice the total is 100, not the 700 of the raw input. *)
Example alice_total_sample :
  sumValues (_getProcessedItems (new tt) alice [itemA; itemB]) = 100
  /\ sumValues [itemA; itemB] = 700.
Proof. split; reflexivity. Qed.

(** Totals that leave the safe integers are outside [sumsExactly]; there
    JavaScript rounds and the integer model is not the program. *)
Example sumsExactly_samples :
  sumsExactly [itemA; itemB; itemX] = true
  /\ sumsExactly [Item.plain 1 (str "p") 9007199254740992;
                  Item.plain 2 (str "q") 1] = false
  /\ sumsExactly [Item.plain 1 (str "p") (-9007199254740991);
                  Item.plain 2 (str "q") (-1)] = false.
Proof. repeat split. Qed.

(** Right-nests every concatenation of the goal. *)
Ltac flatten_app := repeat first [rewrite <- app_assoc | progress cbn [app]].

(** ** Strings: equality, trimming, search *)

Lemma strictEq_refl (a : jsstring) : strictEq a a = true.
Proof.
  induction a as [|x a IH]; simpl; [reflexivity|].
  now rewrite N.eqb_refl, IH.
Qed.

Lemma strictEq_eq (a b : jsstring) : strictEq a b = true <-> a = b.
Proof.
  split; [|intros ->; apply strictEq_refl].
  revert b; induction a as [|x a IH]; intros [|y b]; simpl; try easy.
  intros H. apply andb_true_iff in H as [Hx Hab].
  apply N.eqb_eq in Hx. apply IH in Hab. now subst.
Qed.

Lemma strictEq_neq (a b : jsstring) : a <> b -> strictEq a b = false.
Proof.
  intros Hne. destruct (strictEq a b) eqn:E; [|reflexivity].
  now apply strictEq_eq in E.
Qed.

Lemma trimStart_keeps (c : N) (s : jsstring) :
  isWhiteSpace c = false -> trimStart (c :: s) = c :: s.
Proof. intros H. simpl. now rewrite H. Qed.

Lemma trimEnd_drops_LF (c : N) (s : jsstring) :
  isWhiteSpace c = false -> trimEnd (s ++ [c; LF]) = s ++ [c].
Proof.
  intros H. unfold trimEnd.
  change (s ++ [c; LF]) with (s ++ [c] ++ [LF]).
  rewrite !rev_app_distr. simpl. rewrite H. simpl.
  now rewrite rev_involutive.
Qed.

(** A text that starts and ends with visible characters and is followed by
    one line feed is trimmed to the text. *)
Lemma trim_framed (a b : N) (s : jsstring) :
  isWhiteSpace a = false -> isWhiteSpace b = false ->
  trim (a :: s ++ [b; LF]) = a :: s ++ [b].
Proof.
  intros Ha Hb. unfold trim.
  rewrite (trimStart_keeps a _ Ha).
  exact (trimEnd_drops_LF b (a :: s) Hb).
Qed.

Lemma startsWith_prefix (s sub : jsstring) :
  startsWith s sub = true -> exists post, s = sub ++ post.
Proof.
  revert s; induction sub as [|y sub IH]; intros s H.
  - now exists s.
  - destruct s as [|x s]; [discriminate|]. simpl in H.
    apply andb_true_iff in H as [Hx Hs]. apply N.eqb_eq in Hx. subst y.
    destruct (IH _ Hs) as [post ->]. now exists post.
Qed.

Lemma includes_contains (s sub : jsstring) :
  includes s sub = true -> contains s sub.
Proof.
  induction s as [|x s IH]; intros H.
  - destruct sub; [|discriminate]. now exists [], [].
  - change (startsWith (x :: s) sub || includes s sub = true) in H.
    apply orb_true_iff in H as [H|H].
    + apply startsWith_prefix in H as [post ->]. now exists [], post.
    + destruct (IH H) as (pre & post & ->). now exists (x :: pre), post.
Qed.

(** ** Loops and sums *)

Lemma append_loop {A : Type} (f : A -> jsstring) (l : list A) (init : jsstring) :
  fold_left (fun report x => report ++ f x) l init = init ++ concat (map f l).
Proof.
  revert init; induction l as [|x l IH]; intros init; simpl.
  - now rewrite app_nil_r.
  - now rewrite IH, app_assoc.
Qed.

Lemma reduce_sum (items : list Item.t) (acc : Z) :
  fold_left (fun sum item => sum + Item.value item) items acc
  = acc + sumValues items.
Proof.
  revert acc; induction items as [|item items IH]; intros acc; simpl.
  - lia.
  - rewrite IH. lia.
Qed.

Lemma sumValues_app (xs ys : list Item.t) :
  sumValues (xs ++ ys) = sumValues xs + sumValues ys.
Proof. induction xs as [|x xs IH]; simpl; lia. Qed.

(** ** The two renderers in closed form *)

Lemma _generateCsvReport_text {D : Type} (this : t D) (user : User.t)
    (items : list Item.t) (total : Z) :
  _generateCsvReport this user items total = csvText user items total.
Proof.
  unfold _generateCsvReport, csvText. rewrite append_loop.
  set (rows := concat (map (csvRow user) items)).
  set (n := numberToString total).
  change (str "ID,NOME,VALOR,USUARIO")
    with (73%N :: str "D,NOME,VALOR,USUARIO").
  change (str ",,") with ([44%N] ++ [44%N]).
  transitivity
    (trim (73%N :: (str "D,NOME,VALOR,USUARIO" ++ [LF] ++ rows ++ [LF]
                    ++ str "Total,," ++ [LF] ++ n ++ [44%N])
                   ++ [44%N; LF])).
  - f_equal. now flatten_app.
  - rewrite trim_framed by reflexivity. now flatten_app.
Qed.

Lemma _generateHtmlReport_text {D : Type} (this : t D) (user : User.t)
    (items : list Item.t) (total : Z) :
  _generateHtmlReport this user items total = htmlText user items total.
Proof.
  unfold _generateHtmlReport, htmlText, htmlHead. rewrite append_loop.
  set (rows := concat (map htmlRow items)).
  set (n := numberToString total).
  set (who := User.name user).
  change (str "<html><body>") with (60%N :: str "html><body>").
  change (str "</body></html>") with (str "</body></html" ++ [62%N]).
  transitivity
    (trim (60%N :: (str "html><body>" ++ [LF]
                    ++ str "<h1>Relat" ++ [o_acute] ++ str "rio</h1>" ++ [LF]
                    ++ str "<h2>Usu" ++ [a_acute] ++ str "rio: " ++ who
                    ++ str "</h2>" ++ [LF]
                    ++ str "<table>" ++ [LF]
                    ++ str "<tr><th>ID</th><th>Nome</th><th>Valor</th></tr>"
                    ++ [LF] ++ rows
                    ++ str "</table>" ++ [LF]
                    ++ str "<h3>Total: " ++ n ++ str "</h3>" ++ [LF]
                    ++ str "</body></html")
                   ++ [62%N; LF])).
  - f_equal. now flatten_app.
  - rewrite trim_framed by reflexivity. now flatten_app.
Qed.

(** ** Role dispatch *)

Section RoleDispatch.
Context {D : Type} (this : t D).
Variables (user : User.t) (items : list Item.t).

Lemma processed_admin :
  User.role user = str "ADMIN" ->
  _getProcessedItems this user items = map annotated items.
Proof. intros H. unfold _getProcessedItems. now rewrite H. Qed.

Lemma processed_user :
  User.role user = str "USER" ->
  _getProcessedItems this user items = filter withinUserLimit items.
Proof. intros H. unfold _getProcessedItems. now rewrite H. Qed.

Lemma processed_other :
  User.role user <> str "ADMIN" -> User.role user <> str "USER" ->
  _getProcessedItems this user items = [].
Proof.
  intros Ha Hu. unfold _getProcessedItems.
  now rewrite (strictEq_neq _ _ Ha), (strictEq_neq _ _ Hu).
Qed.

(** Format dispatch, with the total as the sum over the processed items. *)
Lemma generateReport_csv :
  let processed := _getProcessedItems this user items in
  generateReport this (str "CSV") user items
  = csvText user processed (sumValues processed).
Proof.
  intros processed.
  change (generateReport this (str "CSV") user items)
    with (_generateCsvReport this user processed
            (fold_left (fun sum item => sum + Item.value item) processed 0)).
  now rewrite reduce_sum, _generateCsvReport_text.
Qed.

Lemma generateReport_html :
  let processed := _getProcessedItems this user items in
  generateReport this (str "HTML") user items
  = htmlText user processed (sumValues processed).
Proof.
  intros processed.
  change (generateReport this (str "HTML") user items)
    with (_generateHtmlReport this user processed
            (fold_left (fun sum item => sum + Item.value item) processed 0)).
  now rewrite reduce_sum, _generateHtmlReport_text.
Qed.

End RoleDispatch.

(** The report depends on the items only through the processed items. *)
Lemma generateReport_processed {D : Type} (this : t D) (reportType : jsstring)
    (user : User.t) (xs ys : list Item.t) :
  _getProcessedItems this user xs = _getProcessedItems this user ys ->
  generateReport this reportType user xs = generateReport this reportType user ys.
Proof. intros H. unfold generateReport. now rewrite H. Qed.

(** ** Subsequences and filtering *)

Lemma filter_Subseq {A : Type} (f : A -> bool) (l : list A) :
  Subseq (filter f l) l.
Proof.
  induction l as [|x l IH]; simpl.
  - constructor.
  - destruct (f x); now constructor.
Qed.

Lemma filter_idem {A : Type} (f : A -> bool) (l : list A) :
  filter f (filter f l) = filter f l.
Proof.
  induction l as [|x l IH]; simpl; [reflexivity|].
  destruct (f x) eqn:E; simpl; [rewrite E; f_equal|]; exact IH.
Qed.

Lemma withinUserLimit_le (item : Item.t) :
  withinUserLimit item = true <-> Item.value item <= 500.
Proof. unfold withinUserLimit. apply Z.leb_le. Qed.

(** Under USER, dropping an item above the limit makes the sum smaller. *)
Lemma sumValues_filter_le (items : list Item.t) :
  sumValues (filter withinUserLimit items) <= sumValues items.
Proof.
  induction items as [|x l IH]; simpl; [lia|].
  destruct (withinUserLimit x) eqn:E; simpl; [lia|].
  unfold withinUserLimit in E. apply Z.leb_gt in E. lia.
Qed.

Lemma sumValues_filter_lt (items : list Item.t) :
  (exists item, In item items /\ Item.value item > 500) ->
  sumValues (filter withinUserLimit items) < sumValues items.
Proof.
  induction items as [|x l IH]; intros (item & Hin & Hgt); [easy|].
  simpl. destruct (withinUserLimit x) eqn:E; simpl.
  - destruct Hin as [->|Hin].
    + apply withinUserLimit_le in E. lia.
    + assert (sumValues (filter withinUserLimit l) < sumValues l)
        by (apply IH; eauto). lia.
  - assert (Hle := sumValues_filter_le l).
    unfold withinUserLimit in E. apply Z.leb_gt in E. lia.
Qed.

(** Format dispatch, with the total as the reduce of the program. *)
Lemma generateReport_csv_reduce {D : Type} (this : t D) (user : User.t)
    (items : list Item.t) :
  let processed := _getProcessedItems this user items in
  generateReport this (str "CSV") user items
  = csvText user processed
      (fold_left (fun sum item => sum + Item.value item) processed 0).
Proof.
  intros processed.
  change (generateReport this (str "CSV") user items)
    with (_generateCsvReport this user processed
            (fold_left (fun sum item => sum + Item.value item) processed 0)).
  apply _generateCsvReport_text.
Qed.

Lemma generateReport_html_reduce {D : Type} (this : t D) (user : User.t)
    (items : list Item.t) :
  let processed := _getProcessedItems this user items in
  generateReport this (str "HTML") user items
  = htmlText user processed
      (fold_left (fun sum item => sum + Item.value item) processed 0).
Proof.
  intros processed.
  change (generateReport this (str "HTML") user items)
    with (_generateHtmlReport this user processed
            (fold_left (fun sum item => sum + Item.value item) processed 0)).
  apply _generateHtmlReport_text.
Qed.

(** An exact reduce started at a safe integer ends at a safe integer. *)
Lemma exactReduce_safe (items : list Item.t) (acc : Z) :
  isSafeInteger acc = true ->
  exactReduce acc items = true ->
  isSafeInteger
    (fold_left (fun sum item => sum + Item.value item) items acc) = true.
Proof.
  revert acc. induction items as [|x l IH]; intros acc Hacc H; [exact Hacc|].
  cbn [exactReduce] in H. apply andb_true_iff in H as [H Hrest].
  apply andb_true_iff in H as [_ Hsum]. cbn [fold_left]. now apply IH.
Qed.

(** The reduce reads [value] only: the annotation does not change it. *)
Lemma reduce_annotated (items : list Item.t) (acc : Z) :
  fold_left (fun sum item => sum + Item.value item) (map annotated items) acc
  = fold_left (fun sum item => sum + Item.value item) items acc.
Proof.
  revert acc. induction items as [|x l IH]; intros acc; [reflexivity|].
  cbn [map fold_left]. apply IH.
Qed.

(** ** Properties of the specification *)

(** C1.  For a user whose role is USER, the processed items are exactly the
    input items with [value <= 500], in input order and as they were given
    (the USER branch attaches nothing to an item).  The report is the one
    rendered from these items alone: its rows are their rows and its total
    is the reduce of the program over them, so an item above the limit
    contributes no row and nothing to the total. *)
Theorem user_role_sees_items_up_to_500 {D : Type} (this : t D)
    (user : User.t) (items : list Item.t) :
  User.role user = str "USER" ->
  let kept := filter (fun item => Item.value item <=? 500) items in
  _getProcessedItems this user items = kept
  /\ Subseq kept items
  /\ (forall item, In item kept <-> In item items /\ Item.value item <= 500)
  /\ (forall reportType,
        generateReport this reportType user items
        = generateReport this reportType user kept)
  /\ generateReport this (str "CSV") user items
     = csvText user kept
         (fold_left (fun sum item => sum + Item.value item) kept 0)
  /\ generateReport this (str "HTML") user items
     = htmlText user kept
         (fold_left (fun sum item => sum + Item.value item) kept 0).
Proof.
  intros Hrole kept.
  assert (Hp : _getProcessedItems this user items = kept)
    by exact (processed_user this user items Hrole).
  split; [exact Hp|].
  split; [apply filter_Subseq|].
  split; [|split; [|split]].
  - intros item. unfold kept. rewrite filter_In, Z.leb_le. reflexivity.
  - intros reportType. apply generateReport_processed.
    rewrite Hp, (processed_user this user kept Hrole).
    symmetry. apply filter_idem.
  - rewrite generateReport_csv_reduce. cbv zeta. now rewrite Hp.
  - rewrite generateReport_html_reduce. cbv zeta. now rewrite Hp.
Qed.

Lemma user_role_sees_items_up_to_500_witness :
  User.role alice = str "USER"
  /\ _getProcessedItems (new tt) alice [itemA; itemB] = [itemA].
Proof.
  split; [reflexivity|].
  exact (proj1 (user_role_sees_items_up_to_500 (new tt) alice [itemA; itemB]
                  eq_refl)).
Defined.

(** C2.  For a user whose role is ADMIN, the processed items are as many as
    the input items and in the same order; the item at each position keeps
    its id, name and value, and carries [priority = true] exactly when its
    value is above 1000 and [priority = false] otherwise. *)
Theorem admin_role_sees_all_items_with_priority {D : Type} (this : t D)
    (user : User.t) (items : list Item.t) :
  User.role user = str "ADMIN" ->
  let processed := _getProcessedItems this user items in
  length processed = length items
  /\ forall (k : nat) (item : Item.t),
       nth_error items k = Some item ->
       exists p,
         nth_error processed k = Some p
         /\ Item.id p = Item.id item
         /\ Item.name p = Item.name item
         /\ Item.value p = Item.value item
         /\ (Item.priority p = Some true <-> Item.value item > 1000)
         /\ (Item.priority p = Some false <-> Item.value item <= 1000).
Proof.
  intros Hrole processed. subst processed.
  rewrite (processed_admin this user items Hrole). split.
  - apply length_map.
  - intros k item Hk. exists (annotated item).
    split; [now apply map_nth_error|].
    repeat split; simpl; destruct (Z.gtb_spec (Item.value item) 1000);
      intros; try lia; try reflexivity; try discriminate.
Qed.

Lemma admin_role_sees_all_items_with_priority_witness :
  User.role bob = str "ADMIN"
  /\ length (_getProcessedItems (new tt) bob [itemX; itemA]) = 2%nat.
Proof.
  split; [reflexivity|].
  exact (proj1 (admin_role_sees_all_items_with_priority (new tt) bob
                  [itemX; itemA] eq_refl)).
Defined.

(** C10.  For every user, processing distributes over concatenation of item
    lists, and processing the empty list gives the empty list. *)
Theorem getProcessedItems_distributes_over_app {D : Type} (this : t D)
    (user : User.t) :
  (forall xs ys : list Item.t,
     _getProcessedItems this user (xs ++ ys)
     = _getProcessedItems this user xs ++ _getProcessedItems this user ys)
  /\ _getProcessedItems this user [] = [].
Proof.
  unfold _getProcessedItems. split.
  - intros xs ys.
    destruct (strictEq (User.role user) (str "ADMIN")); [apply map_app|].
    destruct (strictEq (User.role user) (str "USER")); [apply filter_app|].
    reflexivity.
  - destruct (strictEq (User.role user) (str "ADMIN")); [reflexivity|].
    now destruct (strictEq (User.role user) (str "USER")).
Qed.

(** C3.  Where the reduce of [generateReport] is exact (every value it adds
    and every running total is a safe integer), the total it computes is the
    sum of [value] over the processed items; it is the number written in the
    footer of the CSV report and in the total heading of the HTML report,
    the same for both, and a safe integer; it is 0 when no item is
    processed; and under USER, as soon as one input item is filtered out, it
    is strictly below the sum over the raw input. *)
Theorem total_is_sum_over_processed_items {D : Type} (this : t D)
    (user : User.t) (items : list Item.t) :
  let processed := _getProcessedItems this user items in
  sumsExactly processed = true ->
  let total := sumValues processed in
  fold_left (fun sum item => sum + Item.value item) processed 0 = total
  /\ generateReport this (str "CSV") user items
     = str "ID,NOME,VALOR,USUARIO" ++ [LF]
       ++ concat (map (csvRow user) processed)
       ++ [LF] ++ str "Total,," ++ [LF] ++ numberToString total ++ str ",,"
  /\ generateReport this (str "HTML") user items
     = htmlHead user
       ++ concat (map htmlRow processed)
       ++ str "</table>" ++ [LF]
       ++ str "<h3>Total: " ++ numberToString total ++ str "</h3>" ++ [LF]
       ++ str "</body></html>"
  /\ isSafeInteger total = true
  /\ (processed = [] -> total = 0)
  /\ (User.role user = str "USER" ->
      (exists item, In item items /\ Item.value item > 500) ->
      total < sumValues items).
Proof.
  intros processed Hexact total.
  split; [apply (reduce_sum processed 0)|].
  split; [apply generateReport_csv|].
  split; [apply generateReport_html|].
  split.
  { unfold total. rewrite <- (Z.add_0_l (sumValues processed)).
    rewrite <- reduce_sum. now apply exactReduce_safe. }
  split.
  - intros Hnil. unfold total. now rewrite Hnil.
  - intros Hrole Hdrop. unfold total, processed.
    rewrite (processed_user this user items Hrole).
    now apply sumValues_filter_lt.
Qed.

Lemma total_is_sum_over_processed_items_witness :
  sumsExactly (_getProcessedItems (new tt) alice [itemA; itemB]) = true
  /\ fold_left (fun sum item => sum + Item.value item)
       (_getProcessedItems (new tt) alice [itemA; itemB]) 0 = 100.
Proof.
  split; [reflexivity|].
  exact (proj1 (total_is_sum_over_processed_items (new tt) alice
                  [itemA; itemB] eq_refl)).
Defined.

(** C4.  For a user whose role is neither ADMIN nor USER, no item is
    processed and the total is 0; the CSV report is the header row, a blank
    line, [Total,,] and [0,,]; the HTML report has the table header row
    directly followed by the end of the table. *)
Theorem unrecognized_role_yields_empty_report {D : Type} (this : t D)
    (user : User.t) (items : list Item.t) :
  User.role user <> str "ADMIN" ->
  User.role user <> str "USER" ->
  _getProcessedItems this user items = []
  /\ fold_left (fun sum item => sum + Item.value item)
       (_getProcessedItems this user items) 0 = 0
  /\ generateReport this (str "CSV") user items
     = str "ID,NOME,VALOR,USUARIO" ++ [LF; LF]
       ++ str "Total,," ++ [LF] ++ str "0,,"
  /\ generateReport this (str "HTML") user items
     = str "<html><body>" ++ [LF]
       ++ str "<h1>Relat" ++ [o_acute] ++ str "rio</h1>" ++ [LF]
       ++ str "<h2>Usu" ++ [a_acute] ++ str "rio: " ++ User.name user
       ++ str "</h2>" ++ [LF]
       ++ str "<table>" ++ [LF]
       ++ str "<tr><th>ID</th><th>Nome</th><th>Valor</th></tr>" ++ [LF]
       ++ str "</table>" ++ [LF]
       ++ str "<h3>Total: 0</h3>" ++ [LF]
       ++ str "</body></html>".
Proof.
  intros Ha Hu.
  assert (Hp := processed_other this user items Ha Hu).
  split; [exact Hp|].
  split; [now rewrite Hp|].
  split.
  - rewrite generateReport_csv. cbv zeta. rewrite Hp. reflexivity.
  - rewrite generateReport_html. cbv zeta. rewrite Hp.
    unfold htmlText, htmlHead. now flatten_app.
Qed.

Lemma unrecognized_role_yields_empty_report_witness :
  User.role guest <> str "ADMIN"
  /\ User.role guest <> str "USER"
  /\ generateReport (new tt) (str "CSV") guest [itemA; itemB; itemX]
     = str "ID,NOME,VALOR,USUARIO" ++ [LF; LF]
       ++ str "Total,," ++ [LF] ++ str "0,,".
Proof.
  assert (Ha : User.role guest <> str "ADMIN") by discriminate.
  assert (Hu : User.role guest <> str "USER") by discriminate.
  split; [exact Ha|]. split; [exact Hu|].
  exact (proj1 (proj2 (proj2
    (unrecognized_role_yields_empty_report (new tt) guest
       [itemA; itemB; itemX] Ha Hu)))).
Defined.

(** C5.  With a report type other than "CSV" and "HTML", [generateReport]
    returns the empty string, whatever the user and the items. *)
Theorem unknown_format_yields_empty_string {D : Type} (this : t D)
    (reportType : jsstring) (user : User.t) (items : list Item.t) :
  reportType <> str "CSV" ->
  reportType <> str "HTML" ->
  generateReport this reportType user items = [].
Proof.
  intros Hc Hh. unfold generateReport.
  now rewrite (strictEq_neq _ _ Hc), (strictEq_neq _ _ Hh).
Qed.

Lemma unknown_format_yields_empty_string_witness :
  str "XML" <> str "CSV"
  /\ str "XML" <> str "HTML"
  /\ generateReport (new tt) (str "XML") bob [itemX] = [].
Proof.
  assert (Hc : str "XML" <> str "CSV") by discriminate.
  assert (Hh : str "XML" <> str "HTML") by discriminate.
  split; [exact Hc|]. split; [exact Hh|].
  exact (unknown_format_yields_empty_string (new tt) (str "XML") bob [itemX]
           Hc Hh).
Defined.

(** C6.  For Alice (role USER), items A (value 100) and B (value 600) and
    the CSV format, the report is the header, the row of item A, a blank
    line, [Total,,] and [100,,]; item B is filtered out. *)
Theorem alice_csv_scenario {D : Type} (this : t D) :
  generateReport this (str "CSV")
    (User.mk (str "Alice") (str "USER"))
    [Item.plain 1 (str "A") 100; Item.plain 2 (str "B") 600]
  = str "ID,NOME,VALOR,USUARIO" ++ [LF]
    ++ str "1,A,100,Alice" ++ [LF]
    ++ [LF] ++ str "Total,," ++ [LF]
    ++ str "100,,".
Proof. reflexivity. Qed.

(** C7.  For Bob (role ADMIN), the single item X of value 1500 and the HTML
    format, the report contains the row of item X with the bold style
    attribute, and the heading [<h3>Total: 1500</h3>]. *)
Theorem bob_html_scenario {D : Type} (this : t D) :
  let report :=
    generateReport this (str "HTML")
      (User.mk (str "Bob") (str "ADMIN"))
      [Item.plain 1 (str "X") 1500] in
  contains report
    (str "<tr style=" ++ [QUOT] ++ str "font-weight:bold;" ++ [QUOT]
     ++ str "><td>1</td><td>X</td><td>1500</td></tr>")
  /\ contains report (str "<h3>Total: 1500</h3>").
Proof.
  intros report. split; apply includes_contains; reflexivity.
Qed.

(** ** The priority annotation *)

Lemma csvRow_erase (user : User.t) (item : Item.t) :
  csvRow user (Item.erase item) = csvRow user item.
Proof. reflexivity. Qed.

Lemma sumValues_erase (items : list Item.t) :
  sumValues (map Item.erase items) = sumValues items.
Proof. induction items as [|x l IH]; simpl; [reflexivity|now rewrite IH]. Qed.

Lemma erase_annotated (items : list Item.t) :
  map Item.erase (map annotated items) = map Item.erase items.
Proof. rewrite map_map. now apply map_ext. Qed.

Lemma erase_filter (items : list Item.t) :
  map Item.erase (filter withinUserLimit items)
  = filter withinUserLimit (map Item.erase items).
Proof. rewrite filter_map_swap. reflexivity. Qed.

(** The processed items, up to [priority], are a function of the input
    items up to [priority]. *)
Lemma processed_erase {D : Type} (this : t D) (user : User.t)
    (items : list Item.t) :
  map Item.erase (_getProcessedItems this user items)
  = map Item.erase (_getProcessedItems this user (map Item.erase items)).
Proof.
  unfold _getProcessedItems.
  destruct (strictEq (User.role user) (str "ADMIN")).
  - change (map Item.erase (map annotated items)
            = map Item.erase (map annotated (map Item.erase items))).
    rewrite !erase_annotated, map_map. now apply map_ext.
  - destruct (strictEq (User.role user) (str "USER")); [|reflexivity].
    change (map Item.erase (filter withinUserLimit items)
            = map Item.erase (filter withinUserLimit (map Item.erase items))).
    rewrite !erase_filter, map_map. reflexivity.
Qed.

(** C8.  Under ADMIN the annotation changes neither the total nor the CSV
    report: the reduce of the program gives the same total over the
    annotated items as over the input items, the CSV report is the CSV text
    of the input items with that total, and the processed items are the
    input items up to [priority].  Outside ADMIN every
    processed item is an input item as given.  For every role, two item lists
    that differ only in [priority] have the same processed items up to
    [priority], and a CSV row does not depend on [priority]. *)
Theorem priority_only_affects_html_styling {D : Type} (this : t D)
    (user : User.t) (items : list Item.t) :
  let processed := _getProcessedItems this user items in
  (User.role user = str "ADMIN" ->
     fold_left (fun sum item => sum + Item.value item) processed 0
     = fold_left (fun sum item => sum + Item.value item) items 0
     /\ (forall total,
           _generateCsvReport this user processed total
           = _generateCsvReport this user items total)
     /\ generateReport this (str "CSV") user items
        = _generateCsvReport this user items
            (fold_left (fun sum item => sum + Item.value item) items 0)
     /\ map Item.erase processed = map Item.erase items)
  /\ (User.role user <> str "ADMIN" ->
      forall p, In p processed -> In p items)
  /\ (forall items',
        map Item.erase items' = map Item.erase items ->
        map Item.erase (_getProcessedItems this user items')
        = map Item.erase processed)
  /\ (forall item, csvRow user item = csvRow user (Item.erase item)).
Proof.
  intros processed. split; [|split; [|split]].
  - intros Hrole.
    assert (Hp : processed = map annotated items)
      by exact (processed_admin this user items Hrole).
    assert (Hrows : map (csvRow user) processed = map (csvRow user) items).
    { rewrite Hp, map_map. now apply map_ext. }
    assert (Hsum : fold_left (fun sum item => sum + Item.value item)
                     processed 0
                   = fold_left (fun sum item => sum + Item.value item)
                       items 0).
    { rewrite Hp. apply reduce_annotated. }
    split; [exact Hsum|]. split; [|split].
    + intros total. rewrite !_generateCsvReport_text.
      unfold csvText. now rewrite Hrows.
    + rewrite generateReport_csv_reduce, _generateCsvReport_text. cbv zeta.
      fold processed. unfold csvText. now rewrite Hrows, Hsum.
    + rewrite Hp. apply erase_annotated.
  - intros Hrole p. unfold processed, _getProcessedItems.
    rewrite (strictEq_neq _ _ Hrole).
    destruct (strictEq (User.role user) (str "USER")); [|easy].
    intros Hin. now apply filter_In in Hin.
  - intros items' Heq. unfold processed.
    rewrite (processed_erase this user items'), Heq.
    symmetry. apply processed_erase.
  - intros item. symmetry. apply csvRow_erase.
Qed.

Lemma priority_only_affects_html_styling_witness :
  User.role bob = str "ADMIN"
  /\ fold_left (fun sum item => sum + Item.value item)
       (_getProcessedItems (new tt) bob [itemX; itemA]) 0
     = fold_left (fun sum item => sum + Item.value item) [itemX; itemA] 0.
Proof.
  split; [reflexivity|].
  exact (proj1 (proj1 (priority_only_affects_html_styling (new tt) bob
                         [itemX; itemA]) eq_refl)).
Defined.

(** ** Numerals *)

Lemma str_inj (a b : string) : str a = str b -> a = b.
Proof.
  unfold str. intros H.
  rewrite <- (string_of_list_ascii_of_string a),
          <- (string_of_list_ascii_of_string b).
  f_equal. revert H.
  generalize (list_ascii_of_string a) (list_ascii_of_string b).
  induction l as [|x l IH]; intros [|y l']; simpl; try easy.
  intros [= Hxy Hl]. f_equal; [|now apply IH].
  rewrite <- (ascii_N_embedding x), <- (ascii_N_embedding y).
  now rewrite Hxy.
Qed.

Lemma to_int_proper (n : Z) :
  Z.to_int n <> Decimal.Pos Decimal.Nil /\ Z.to_int n <> Decimal.Neg Decimal.Nil.
Proof.
  destruct n as [|p|p]; simpl; split; try easy;
    intros [= H]; now apply DecimalPos.Unsigned.to_uint_nonnil in H.
Qed.

Lemma numberToString_inj (a b : Z) :
  numberToString a = numberToString b -> a = b.
Proof.
  unfold numberToString. intros H. apply str_inj in H.
  apply DecimalZ.to_int_inj.
  destruct (to_int_proper a) as [Ha1 Ha2], (to_int_proper b) as [Hb1 Hb2].
  assert (E : Some (Z.to_int a) = Some (Z.to_int b)).
  { rewrite <- (NilZero.isi _ Ha1 Ha2), <- (NilZero.isi _ Hb1 Hb2).
    now rewrite H. }
  now injection E.
Qed.

Lemma uint_units (d : Decimal.uint) :
  forallb isNumeralUnit (str (NilEmpty.string_of_uint d)) = true.
Proof. induction d; simpl; auto. Qed.

Lemma numberToString_units (n : Z) :
  forallb isNumeralUnit (numberToString n) = true.
Proof.
  unfold numberToString.
  destruct (Z.to_int n) as [d|d]; simpl;
    (destruct d; [reflexivity|apply (uint_units (_ d))..]).
Qed.

Lemma numberToString_lacks (c : N) (n : Z) :
  isNumeralUnit c = false -> lacks c (numberToString n).
Proof.
  intros Hc Hin.
  assert (H := numberToString_units n).
  rewrite forallb_forall in H. specialize (H c Hin). congruence.
Qed.

Lemma numberToString_head (n : Z) :
  exists c rest, numberToString n = c :: rest /\ isNumeralUnit c = true.
Proof.
  assert (H := numberToString_units n).
  destruct (numberToString n) as [|c rest] eqn:E.
  - exfalso. unfold numberToString in E.
    destruct (Z.to_int n) as [d|d]; [|discriminate].
    destruct d; discriminate.
  - simpl in H. apply andb_true_iff in H as [Hc _]. now exists c, rest.
Qed.

(** ** Composition of the role branches *)

Lemma filter_annotated (items : list Item.t) :
  filter withinUserLimit (map annotated items)
  = map annotated (filter withinUserLimit items).
Proof. now rewrite filter_map_swap. Qed.

Lemma annotated_idem (items : list Item.t) :
  map annotated (map annotated items) = map annotated items.
Proof. rewrite map_map. now apply map_ext. Qed.

Lemma within_limit_not_priority (items : list Item.t) :
  Forall (fun p => Item.priority p = Some false)
         (map annotated (filter withinUserLimit items)).
Proof.
  apply Forall_forall. intros p Hin.
  apply in_map_iff in Hin as (item & <- & Hitem).
  apply filter_In in Hitem as [_ Hle]. apply withinUserLimit_le in Hle.
  simpl. f_equal. destruct (Z.gtb_spec (Item.value item) 1000); [lia|easy].
Qed.

(** X1.  Processing is idempotent for every role: processing the processed
    items changes nothing, so a report made from already processed items is
    the report made from the input. *)
Theorem processing_is_idempotent {D : Type} (this : t D)
    (user : User.t) (items : list Item.t) :
  _getProcessedItems this user (_getProcessedItems this user items)
  = _getProcessedItems this user items
  /\ forall reportType,
       generateReport this reportType user (_getProcessedItems this user items)
       = generateReport this reportType user items.
Proof.
  assert (H : _getProcessedItems this user (_getProcessedItems this user items)
              = _getProcessedItems this user items).
  { unfold _getProcessedItems.
    destruct (strictEq (User.role user) (str "ADMIN")); [apply annotated_idem|].
    destruct (strictEq (User.role user) (str "USER")); [apply filter_idem|].
    reflexivity. }
  split; [exact H|].
  intros reportType. now apply generateReport_processed.
Qed.

(** X2.  The USER filter and the ADMIN annotation commute, and in their
    composition no item is flagged: an item within the USER limit is never
    above the ADMIN priority limit. *)
Theorem user_filter_and_admin_annotation_commute {D : Type} (this : t D)
    (admin user : User.t) (items : list Item.t) :
  User.role admin = str "ADMIN" ->
  User.role user = str "USER" ->
  _getProcessedItems this user (_getProcessedItems this admin items)
  = _getProcessedItems this admin (_getProcessedItems this user items)
  /\ Forall (fun p => Item.priority p = Some false)
            (_getProcessedItems this user (_getProcessedItems this admin items)).
Proof.
  intros Ha Hu.
  rewrite (processed_admin this admin items Ha).
  rewrite (processed_user this user (map annotated items) Hu).
  rewrite (processed_user this user items Hu).
  rewrite (processed_admin this admin _ Ha).
  rewrite filter_annotated. split; [reflexivity|].
  apply within_limit_not_priority.
Qed.

Lemma user_filter_and_admin_annotation_commute_witness :
  User.role bob = str "ADMIN" /\ User.role alice = str "USER"
  /\ _getProcessedItems (new tt) alice
       (_getProcessedItems (new tt) bob [itemA; itemB; itemX])
     = _getProcessedItems (new tt) bob
         (_getProcessedItems (new tt) alice [itemA; itemB; itemX]).
Proof.
  split; [reflexivity|]. split; [reflexivity|].
  exact (proj1 (user_filter_and_admin_annotation_commute (new tt) bob alice
                  [itemA; itemB; itemX] eq_refl eq_refl)).
Defined.

(** ** Shape of the reports *)

Lemma trim_fixed (a b : N) (s : jsstring) :
  isWhiteSpace a = false -> isWhiteSpace b = false ->
  trim (a :: s ++ [b]) = a :: s ++ [b].
Proof.
  intros Ha Hb. unfold trim. rewrite (trimStart_keeps a _ Ha).
  unfold trimEnd. rewrite app_comm_cons, rev_app_distr.
  change (rev [b]) with [b]. cbn [app].
  rewrite (trimStart_keeps b _ Hb).
  change (rev (b :: rev (a :: s))) with (rev (rev (a :: s)) ++ [b]).
  now rewrite rev_involutive.
Qed.

Lemma csvText_framed (user : User.t) (rows : list Item.t) (total : Z) :
  exists s, csvText user rows total = 73%N :: s ++ [44%N].
Proof.
  exists (str "D,NOME,VALOR,USUARIO" ++ [LF]
          ++ concat (map (csvRow user) rows)
          ++ [LF] ++ str "Total,," ++ [LF] ++ numberToString total ++ [44%N]).
  unfold csvText.
  change (str "ID,NOME,VALOR,USUARIO")
    with (73%N :: str "D,NOME,VALOR,USUARIO").
  change (str ",,") with ([44%N] ++ [44%N]).
  now flatten_app.
Qed.

Lemma htmlText_framed (user : User.t) (rows : list Item.t) (total : Z) :
  exists s, htmlText user rows total = 60%N :: s ++ [62%N].
Proof.
  exists (str "html><body>" ++ [LF]
          ++ str "<h1>Relat" ++ [o_acute] ++ str "rio</h1>" ++ [LF]
          ++ str "<h2>Usu" ++ [a_acute] ++ str "rio: " ++ User.name user
          ++ str "</h2>" ++ [LF]
          ++ str "<table>" ++ [LF]
          ++ str "<tr><th>ID</th><th>Nome</th><th>Valor</th></tr>" ++ [LF]
          ++ concat (map htmlRow rows)
          ++ str "</table>" ++ [LF]
          ++ str "<h3>Total: " ++ numberToString total ++ str "</h3>" ++ [LF]
          ++ str "</body></html").
  unfold htmlText, htmlHead.
  change (str "<html><body>") with (60%N :: str "html><body>").
  change (str "</body></html>") with (str "</body></html" ++ [62%N]).
  now flatten_app.
Qed.

(** The three outcomes of the format dispatch. *)
Lemma generateReport_cases {D : Type} (this : t D) (reportType : jsstring)
    (user : User.t) (items : list Item.t) :
  let processed := _getProcessedItems this user items in
  (reportType = str "CSV"
   /\ generateReport this reportType user items
      = csvText user processed (sumValues processed))
  \/ (reportType = str "HTML"
      /\ generateReport this reportType user items
         = htmlText user processed (sumValues processed))
  \/ (reportType <> str "CSV" /\ reportType <> str "HTML"
      /\ generateReport this reportType user items = []).
Proof.
  intros processed.
  destruct (strictEq reportType (str "CSV")) eqn:Ec.
  { apply strictEq_eq in Ec. subst reportType. left. split; [reflexivity|].
    apply generateReport_csv. }
  destruct (strictEq reportType (str "HTML")) eqn:Eh.
  { apply strictEq_eq in Eh. subst reportType. right. left.
    split; [reflexivity|]. apply generateReport_html. }
  right. right.
  assert (Hc : reportType <> str "CSV")
    by (intros ->; now rewrite strictEq_refl in Ec).
  assert (Hh : reportType <> str "HTML")
    by (intros ->; now rewrite strictEq_refl in Eh).
  repeat split; try assumption.
  unfold generateReport. now rewrite Ec, Eh.
Qed.

(** X3.  The report is the empty string exactly when the report type is
    neither "CSV" nor "HTML": for the two known formats it is never empty,
    whatever the role and the items. *)
Theorem report_is_empty_exactly_for_unknown_format {D : Type} (this : t D)
    (reportType : jsstring) (user : User.t) (items : list Item.t) :
  generateReport this reportType user items = []
  <-> reportType <> str "CSV" /\ reportType <> str "HTML".
Proof.
  destruct (generateReport_cases this reportType user items)
    as [[Ht Hr]|[[Ht Hr]|(Hc & Hh & Hr)]]; rewrite Hr.
  - destruct (csvText_framed user (_getProcessedItems this user items)
                (sumValues (_getProcessedItems this user items))) as [s ->].
    split; [discriminate|]. now intros [Hc _].
  - destruct (htmlText_framed user (_getProcessedItems this user items)
                (sumValues (_getProcessedItems this user items))) as [s ->].
    split; [discriminate|]. now intros [_ Hh].
  - now split.
Qed.

(** X4.  A report has no leading or trailing white space left: trimming it
    again changes nothing, for every report type, user and item list. *)
Theorem report_is_stable_under_trim {D : Type} (this : t D)
    (reportType : jsstring) (user : User.t) (items : list Item.t) :
  trim (generateReport this reportType user items)
  = generateReport this reportType user items.
Proof.
  destruct (generateReport_cases this reportType user items)
    as [[Ht Hr]|[[Ht Hr]|(Hc & Hh & Hr)]]; rewrite Hr.
  - destruct (csvText_framed user (_getProcessedItems this user items)
                (sumValues (_getProcessedItems this user items))) as [s ->].
    now apply trim_fixed.
  - destruct (htmlText_framed user (_getProcessedItems this user items)
                (sumValues (_getProcessedItems this user items))) as [s ->].
    now apply trim_fixed.
  - reflexivity.
Qed.

(** ** Lines of the reports *)

Lemma lineFeeds_app (a b : jsstring) :
  lineFeeds (a ++ b) = (lineFeeds a + lineFeeds b)%nat.
Proof. unfold lineFeeds. now rewrite filter_app, length_app. Qed.

Lemma lineFeeds_lacks (s : jsstring) : lacks LF s -> lineFeeds s = 0%nat.
Proof.
  unfold lacks, lineFeeds. induction s as [|c s IH]; intros H; [reflexivity|].
  cbn [filter]. destruct (N.eqb_spec LF c) as [E|_].
  - exfalso. apply H. now left.
  - apply IH. intros Hin. apply H. now right.
Qed.

Lemma lineFeeds_number (n : Z) : lineFeeds (numberToString n) = 0%nat.
Proof. apply lineFeeds_lacks. now apply numberToString_lacks. Qed.

Lemma lineFeeds_csvRows (user : User.t) (items : list Item.t) :
  lacks LF (User.name user) ->
  Forall (fun item => lacks LF (Item.name item)) items ->
  lineFeeds (concat (map (csvRow user) items)) = length items.
Proof.
  intros Hu. induction 1 as [|item items Hi _ IH]; [reflexivity|].
  cbn [map concat length]. rewrite lineFeeds_app, IH. unfold csvRow.
  rewrite !lineFeeds_app, !lineFeeds_number.
  now rewrite (lineFeeds_lacks _ Hi), (lineFeeds_lacks _ Hu).
Qed.

Lemma lineFeeds_htmlRows (items : list Item.t) :
  Forall (fun item => lacks LF (Item.name item)) items ->
  lineFeeds (concat (map htmlRow items)) = length items.
Proof.
  induction 1 as [|item items Hi _ IH]; [reflexivity|].
  cbn [map concat length]. rewrite lineFeeds_app, IH. unfold htmlRow.
  rewrite !lineFeeds_app, !lineFeeds_number, (lineFeeds_lacks _ Hi).
  now destruct (truthy (Item.priority item)).
Qed.

(** Evaluates the line feeds of the literals of the goal. *)
Ltac count_literals :=
  repeat match goal with
         | |- context [lineFeeds (str ?x)] =>
             let v := eval vm_compute in (lineFeeds (str x)) in
             change (lineFeeds (str x)) with v
         | |- context [lineFeeds [?c]] =>
             let v := eval vm_compute in (lineFeeds [c]) in
             change (lineFeeds [c]) with v
         end.

(** X5.  When neither the user's name nor an item's name holds a line feed,
    the CSV text has one line per item besides its four fixed lines (header,
    blank line, [Total,,] and the total): it holds [length items + 3] line
    feeds. *)
Theorem csv_report_has_one_line_per_item {D : Type} (this : t D)
    (user : User.t) (items : list Item.t) (total : Z) :
  lacks LF (User.name user) ->
  Forall (fun item => lacks LF (Item.name item)) items ->
  lineFeeds (_generateCsvReport this user items total)
  = (length items + 3)%nat.
Proof.
  intros Hu Hi. rewrite _generateCsvReport_text. unfold csvText.
  rewrite !lineFeeds_app, (lineFeeds_csvRows user items Hu Hi),
    lineFeeds_number.
  count_literals. lia.
Qed.

Lemma csv_report_has_one_line_per_item_witness :
  lineFeeds (_generateCsvReport (new tt) bob [itemA; itemB; itemX] 2200)
  = 6%nat.
Proof.
  apply (csv_report_has_one_line_per_item (new tt) bob [itemA; itemB; itemX]).
  - intros H. simpl in H. intuition discriminate.
  - repeat constructor; intros H; simpl in H; intuition discriminate.
Defined.

(** X6.  Under the same condition on the names, the HTML text has one line
    per item besides its eight fixed lines: [length items + 7] line feeds. *)
Theorem html_report_has_one_line_per_item {D : Type} (this : t D)
    (user : User.t) (items : list Item.t) (total : Z) :
  lacks LF (User.name user) ->
  Forall (fun item => lacks LF (Item.name item)) items ->
  lineFeeds (_generateHtmlReport this user items total)
  = (length items + 7)%nat.
Proof.
  intros Hu Hi. rewrite _generateHtmlReport_text. unfold htmlText, htmlHead.
  rewrite !lineFeeds_app, (lineFeeds_htmlRows items Hi), lineFeeds_number,
    (lineFeeds_lacks _ Hu).
  count_literals. lia.
Qed.

Lemma html_report_has_one_line_per_item_witness :
  lineFeeds (_generateHtmlReport (new tt) bob [itemA; itemB; itemX] 2200)
  = 10%nat.
Proof.
  apply (html_report_has_one_line_per_item (new tt) bob [itemA; itemB; itemX]).
  - intros H. simpl in H. intuition discriminate.
  - repeat constructor; intros H; simpl in H; intuition discriminate.
Defined.

(** ** Totals *)

Lemma sumValues_within_limit (items : list Item.t) :
  sumValues (filter withinUserLimit items)
  <= 500 * Z.of_nat (length (filter withinUserLimit items)).
Proof.
  induction items as [|x l IH]; [simpl; lia|].
  cbn [filter]. destruct (withinUserLimit x) eqn:E; [|exact IH].
  apply withinUserLimit_le in E. cbn [sumValues length].
  rewrite Nat2Z.inj_succ. lia.
Qed.

(** X7.  Under USER, where the reduce of [generateReport] is exact (every
    value it adds and every running total is a safe integer), the total it
    computes is at most 500 times the number of processed items, and at most
    the sum over the raw input (a filtered item is above 500, hence
    positive). *)
Theorem user_total_is_bounded {D : Type} (this : t D)
    (user : User.t) (items : list Item.t) :
  User.role user = str "USER" ->
  let processed := _getProcessedItems this user items in
  sumsExactly processed = true ->
  let total :=
    fold_left (fun sum item => sum + Item.value item) processed 0 in
  total <= 500 * Z.of_nat (length processed)
  /\ total <= sumValues items.
Proof.
  intros Hrole processed _ total. unfold total, processed.
  rewrite reduce_sum, (processed_user this user items Hrole).
  split; [apply sumValues_within_limit|apply sumValues_filter_le].
Qed.

Lemma user_total_is_bounded_witness :
  User.role alice = str "USER"
  /\ sumsExactly (_getProcessedItems (new tt) alice [itemA; itemB]) = true
  /\ fold_left (fun sum item => sum + Item.value item)
       (_getProcessedItems (new tt) alice [itemA; itemB]) 0
     <= sumValues [itemA; itemB].
Proof.
  split; [reflexivity|]. split; [reflexivity|].
  exact (proj2 (user_total_is_bounded (new tt) alice [itemA; itemB]
                  eq_refl eq_refl)).
Defined.

(** ** Reports of the two roles *)

Lemma sumValues_annotated (items : list Item.t) :
  sumValues (map annotated items) = sumValues items.
Proof. induction items as [|x l IH]; simpl; [reflexivity|now rewrite IH]. Qed.

Lemma csvRows_annotated (user : User.t) (items : list Item.t) :
  map (csvRow user) (map annotated items) = map (csvRow user) items.
Proof. rewrite map_map. now apply map_ext. Qed.

(** Under ADMIN the CSV report is the text of the raw items. *)
Lemma generateReport_csv_admin {D : Type} (this : t D) (user : User.t)
    (items : list Item.t) :
  User.role user = str "ADMIN" ->
  generateReport this (str "CSV") user items
  = csvText user items (sumValues items).
Proof.
  intros Hrole. rewrite generateReport_csv. cbv zeta.
  rewrite (processed_admin this user items Hrole). unfold csvText.
  now rewrite csvRows_annotated, sumValues_annotated.
Qed.

Lemma csvRow_same_name (u1 u2 : User.t) (item : Item.t) :
  User.name u1 = User.name u2 -> csvRow u1 item = csvRow u2 item.
Proof. intros H. unfold csvRow. now rewrite H. Qed.

(** A row is bold only through the truthiness of [priority]. *)
Lemma htmlRows_unflagged (items : list Item.t) :
  Forall (fun item => truthy (Item.priority item) = false) items ->
  map htmlRow (map annotated (filter withinUserLimit items))
  = map htmlRow (filter withinUserLimit items).
Proof.
  induction 1 as [|x l Hx _ IH]; [reflexivity|].
  cbn [filter]. destruct (withinUserLimit x) eqn:E; [|exact IH].
  cbn [map]. rewrite IH. f_equal.
  apply withinUserLimit_le in E. unfold htmlRow. rewrite Hx. simpl.
  destruct (Z.gtb_spec (Item.value x) 1000); [lia|reflexivity].
Qed.

(** X8.  What a USER gets is what an ADMIN of the same name gets for the
    items within the USER limit: the CSV reports are equal, and so are the
    HTML reports when no input item carries a true [priority] of its own. *)
Theorem user_report_is_admin_report_of_visible_items {D : Type} (this : t D)
    (admin user : User.t) (items : list Item.t) :
  User.role admin = str "ADMIN" ->
  User.role user = str "USER" ->
  User.name admin = User.name user ->
  let visible := filter (fun item => Item.value item <=? 500) items in
  generateReport this (str "CSV") user items
  = generateReport this (str "CSV") admin visible
  /\ (Forall (fun item => truthy (Item.priority item) = false) items ->
      generateReport this (str "HTML") user items
      = generateReport this (str "HTML") admin visible).
Proof.
  intros Ha Hu Hname visible.
  assert (Hp : _getProcessedItems this user items = visible)
    by exact (processed_user this user items Hu).
  change visible with (filter withinUserLimit items) in *. clear visible.
  split.
  - rewrite (generateReport_csv_admin this admin _ Ha).
    rewrite generateReport_csv. cbv zeta. rewrite Hp. unfold csvText.
    f_equal. f_equal. f_equal. f_equal. apply map_ext.
    intros item. now apply csvRow_same_name.
  - intros Hplain. rewrite !generateReport_html. cbv zeta.
    rewrite Hp, (processed_admin this admin _ Ha).
    unfold htmlText, htmlHead.
    rewrite sumValues_annotated, Hname.
    now rewrite (htmlRows_unflagged items Hplain).
Qed.

Lemma user_report_is_admin_report_of_visible_items_witness :
  generateReport (new tt) (str "CSV") alice [itemA; itemB; itemX]
  = generateReport (new tt) (str "CSV")
      (User.mk (str "Alice") (str "ADMIN")) [itemA].
Proof.
  exact (proj1 (user_report_is_admin_report_of_visible_items (new tt)
                  (User.mk (str "Alice") (str "ADMIN")) alice
                  [itemA; itemB; itemX] eq_refl eq_refl eq_refl)).
Defined.

(** ** Names are written as they are *)

Lemma csvText_insert (user : User.t) (pre post mid mid' : list Item.t) :
  concat (map (csvRow user) mid) = concat (map (csvRow user) mid') ->
  sumValues mid = sumValues mid' ->
  csvText user (pre ++ mid ++ post) (sumValues (pre ++ mid ++ post))
  = csvText user (pre ++ mid' ++ post) (sumValues (pre ++ mid' ++ post)).
Proof.
  intros Hrows Hsum. unfold csvText.
  rewrite !map_app, !concat_app, !sumValues_app. now rewrite Hrows, Hsum.
Qed.

(** X9.  The CSV report does not escape names.  Under ADMIN, an item whose
    name embeds the end of a row of value 0 and the start of another row is
    reported exactly as the two items it spells out, anywhere in the list:
    two different item lists have the same report. *)
Theorem csv_report_does_not_escape_names {D : Type} (this : t D)
    (user : User.t) (pre post : list Item.t)
    (id1 id2 : Z) (name1 name2 : jsstring) (value2 : Z)
    (p p1 p2 : option bool) :
  User.role user = str "ADMIN" ->
  let forged :=
    name1 ++ str "," ++ numberToString 0 ++ str "," ++ User.name user
    ++ [LF] ++ numberToString id2 ++ str "," ++ name2 in
  generateReport this (str "CSV") user
    (pre ++ [Item.mk id1 forged value2 p] ++ post)
  = generateReport this (str "CSV") user
      (pre ++ [Item.mk id1 name1 0 p1; Item.mk id2 name2 value2 p2] ++ post).
Proof.
  intros Hrole forged.
  rewrite !(generateReport_csv_admin this user _ Hrole).
  apply csvText_insert.
  - cbn [map concat]. unfold csvRow, forged. cbn [Item.id Item.name Item.value].
    rewrite !app_nil_r. now flatten_app.
  - cbn [sumValues Item.value]. lia.
Qed.

Lemma csv_report_does_not_escape_names_witness :
  generateReport (new tt) (str "CSV") bob
    ([itemA]
     ++ [Item.mk 7 (str "p" ++ str "," ++ numberToString 0 ++ str ","
                    ++ User.name bob ++ [LF] ++ numberToString 8 ++ str ","
                    ++ str "q") 30 None]
     ++ [])
  = generateReport (new tt) (str "CSV") bob
      ([itemA] ++ [Item.mk 7 (str "p") 0 None; Item.mk 8 (str "q") 30 None]
       ++ []).
Proof.
  exact (csv_report_does_not_escape_names (new tt) bob [itemA] [] 7 8
           (str "p") (str "q") 30 None None None eq_refl).
Defined.

(** ** Reading a CSV report back *)

Lemma lacks_app (c : N) (a b : jsstring) :
  lacks c a -> lacks c b -> lacks c (a ++ b).
Proof.
  unfold lacks. intros Ha Hb Hin. apply in_app_or in Hin. tauto.
Qed.

Lemma lacks_cons (c x : N) (s : jsstring) :
  x <> c -> lacks c s -> lacks c (x :: s).
Proof. unfold lacks. intros Hx Hs [E|Hin]; [now apply Hx|now apply Hs]. Qed.

(** Two texts cut at the first occurrence of a separator are cut alike. *)
Lemma split_at_first (c : N) (a1 a2 r1 r2 : jsstring) :
  lacks c a1 -> lacks c a2 ->
  a1 ++ c :: r1 = a2 ++ c :: r2 -> a1 = a2 /\ r1 = r2.
Proof.
  unfold lacks. revert a2.
  induction a1 as [|x a1 IH]; intros [|y a2] H1 H2 E; cbn [app] in E.
  - injection E as E. now split.
  - injection E as Ec _. exfalso. apply H2. now left.
  - injection E as Ec _. exfalso. apply H1. now left.
  - injection E as Exy E. subst y.
    destruct (IH a2) as [Ha Hr]; try assumption.
    + intros Hin. apply H1. now right.
    + intros Hin. apply H2. now right.
    + now subst.
Qed.

Section ReadBack.
Variable user : User.t.
Hypothesis user_name_lacks_LF : lacks LF (User.name user).

(** A row without its final line feed. *)
Let body (item : Item.t) : jsstring :=
  numberToString (Item.id item) ++ COMMA :: Item.name item
  ++ COMMA :: numberToString (Item.value item) ++ COMMA :: User.name user.

Lemma csvRow_body (item : Item.t) (rest : jsstring) :
  csvRow user item ++ rest = body item ++ LF :: rest.
Proof. unfold csvRow, body. now flatten_app. Qed.

Lemma body_lacks_LF (item : Item.t) :
  plainName (Item.name item) -> lacks LF (body item).
Proof.
  intros [_ Hn]. unfold body.
  repeat first [ apply lacks_app | apply lacks_cons ];
    try assumption; try discriminate; now apply numberToString_lacks.
Qed.

Lemma body_inj (x y : Item.t) :
  plainName (Item.name x) -> plainName (Item.name y) ->
  body x = body y -> Item.erase x = Item.erase y.
Proof.
  intros [Hx _] [Hy _] E. unfold body in E.
  apply split_at_first in E as [Eid E];
    try (now apply numberToString_lacks).
  apply split_at_first in E as [Ename E]; try assumption.
  apply split_at_first in E as [Evalue _];
    try (now apply numberToString_lacks).
  apply numberToString_inj in Eid, Evalue.
  unfold Item.erase. now rewrite Eid, Ename, Evalue.
Qed.

(** A row never starts with a line feed. *)
Lemma csvRow_not_blank (item : Item.t) (rest tail : jsstring) :
  LF :: tail <> csvRow user item ++ rest.
Proof.
  rewrite csvRow_body. unfold body.
  destruct (numberToString_head (Item.id item)) as (c & r & -> & Hc).
  cbn [app]. intros [= <- _]. discriminate.
Qed.

Lemma csvRows_inj (xs ys : list Item.t) (tx ty : jsstring) :
  Forall (fun item => plainName (Item.name item)) xs ->
  Forall (fun item => plainName (Item.name item)) ys ->
  concat (map (csvRow user) xs) ++ LF :: tx
  = concat (map (csvRow user) ys) ++ LF :: ty ->
  map Item.erase xs = map Item.erase ys /\ tx = ty.
Proof.
  intros Hxs. revert ys.
  induction Hxs as [|x xs Hx _ IH]; intros ys Hys E;
    destruct Hys as [|y ys Hy Hys]; cbn [map concat app] in E.
  - injection E as E. now split.
  - rewrite <- app_assoc in E. now apply csvRow_not_blank in E.
  - rewrite <- app_assoc in E. symmetry in E.
    now apply csvRow_not_blank in E.
  - rewrite <- !app_assoc, !csvRow_body in E.
    apply split_at_first in E as [Eb E]; try now apply body_lacks_LF.
    destruct (IH ys Hys E) as [Hl Ht].
    split; [|exact Ht]. cbn [map]. f_equal; [|exact Hl].
    now apply body_inj.
Qed.

End ReadBack.

Lemma processed_names {D : Type} (this : t D) (user : User.t)
    (Q : jsstring -> Prop) (items : list Item.t) :
  Forall (fun item => Q (Item.name item)) items ->
  Forall (fun item => Q (Item.name item)) (_getProcessedItems this user items).
Proof.
  intros H. unfold _getProcessedItems.
  destruct (strictEq (User.role user) (str "ADMIN")).
  - induction H; cbn [map]; constructor; assumption.
  - destruct (strictEq (User.role user) (str "USER")); [|constructor].
    induction H as [|x l Hx _ IH]; cbn [filter]; [constructor|].
    destruct (Item.value x <=? USER_VALUE_LIMIT); [now constructor|exact IH].
Qed.

(** X10.  When no item name holds a comma or a line feed and the user's name
    holds no line feed, the CSV report determines what was reported: two
    item lists with the same CSV report have the same processed items, up to
    [priority] (ids, names and values, in order). *)
Theorem csv_report_determines_processed_items {D : Type} (this : t D)
    (user : User.t) (items1 items2 : list Item.t) :
  lacks LF (User.name user) ->
  Forall (fun item => plainName (Item.name item)) items1 ->
  Forall (fun item => plainName (Item.name item)) items2 ->
  generateReport this (str "CSV") user items1
  = generateReport this (str "CSV") user items2 ->
  map Item.erase (_getProcessedItems this user items1)
  = map Item.erase (_getProcessedItems this user items2).
Proof.
  intros Hu H1 H2 E.
  rewrite !generateReport_csv in E. cbv zeta in E. unfold csvText in E.
  rewrite !(app_assoc (str "ID,NOME,VALOR,USUARIO") [LF]) in E.
  apply app_inv_head in E. cbn [app] in E.
  apply (csvRows_inj user Hu) in E as [E _]; [exact E| |];
    now apply processed_names.
Qed.

Lemma csv_report_determines_processed_items_witness :
  map Item.erase (_getProcessedItems (new tt) alice [itemA; itemB])
  = map Item.erase
      (_getProcessedItems (new tt) alice
         [Item.mk 1 (str "A") 100 (Some true); itemX]).
Proof.
  apply (csv_report_determines_processed_items (new tt) alice).
  - intros H. simpl in H. intuition discriminate.
  - repeat constructor; intros H; simpl in H; intuition discriminate.
  - repeat constructor; intros H; simpl in H; intuition discriminate.
  - reflexivity.
Defined.

(** ** Every processed item is reported *)

Lemma rows_contain {A : Type} (f : A -> jsstring) (rows : list A) (p : A) :
  In p rows -> exists a b, concat (map f rows) = a ++ f p ++ b.
Proof.
  intros Hin. apply in_split in Hin as (l1 & l2 & ->).
  exists (concat (map f l1)), (concat (map f l2)).
  now rewrite map_app, concat_app.
Qed.

Lemma contains_middle (head tail rows sub : jsstring) :
  (exists a b, rows = a ++ sub ++ b) -> contains (head ++ rows ++ tail) sub.
Proof.
  intros (a & b & ->). exists (head ++ a), (b ++ tail).
  now rewrite <- !app_assoc.
Qed.

(** X11.  Whatever the role, each processed item has its row in the report:
    the CSV report contains its line [id,name,value,user] and the HTML
    report its table row, each with its final line feed. *)
Theorem every_processed_item_has_its_row {D : Type} (this : t D)
    (user : User.t) (items : list Item.t) (p : Item.t) :
  In p (_getProcessedItems this user items) ->
  contains (generateReport this (str "CSV") user items) (csvRow user p)
  /\ contains (generateReport this (str "HTML") user items) (htmlRow p).
Proof.
  intros Hin. split.
  - rewrite generateReport_csv. cbv zeta. unfold csvText.
    rewrite (app_assoc (str "ID,NOME,VALOR,USUARIO") [LF]).
    apply contains_middle. now apply rows_contain.
  - rewrite generateReport_html. cbv zeta. unfold htmlText.
    apply contains_middle. now apply rows_contain.
Qed.

Lemma every_processed_item_has_its_row_witness :
  contains (generateReport (new tt) (str "CSV") alice [itemB; itemA])
           (str "1,A,100,Alice" ++ [LF]).
Proof.
  apply (every_processed_item_has_its_row (new tt) alice [itemB; itemA] itemA).
  simpl. now left.
Defined.

(** X12.  Under ADMIN every input item is in the HTML report, in bold exactly
    when its value is above 1000: the report contains the item's row with
    the bold style attribute if [value > 1000], and with no attribute
    otherwise, whatever [priority] the item came with. *)
Theorem admin_html_row_is_bold_iff_above_1000 {D : Type} (this : t D)
    (user : User.t) (items : list Item.t) (item : Item.t) :
  User.role user = str "ADMIN" ->
  In item items ->
  contains (generateReport this (str "HTML") user items)
    (str "<tr "
     ++ (if Item.value item >? 1000
         then str "style=" ++ [QUOT] ++ str "font-weight:bold;" ++ [QUOT]
         else [])
     ++ str "><td>" ++ numberToString (Item.id item)
     ++ str "</td><td>" ++ Item.name item
     ++ str "</td><td>" ++ numberToString (Item.value item)
     ++ str "</td></tr>" ++ [LF]).
Proof.
  intros Hrole Hin.
  rewrite generateReport_html. cbv zeta.
  rewrite (processed_admin this user items Hrole). unfold htmlText.
  apply contains_middle.
  destruct (rows_contain htmlRow (map annotated items) (annotated item))
    as (a & b & E); [now apply in_map|].
  exists a, b. rewrite E. f_equal. f_equal.
  unfold htmlRow, annotated, boldStyle.
  cbn [Item.priority Item.id Item.name Item.value truthy].
  now destruct (Item.value item >? 1000).
Qed.

Lemma admin_html_row_is_bold_iff_above_1000_witness :
  contains (generateReport (new tt) (str "HTML") bob [itemA; itemX])
    (str "<tr " ++ [] ++ str "><td>" ++ str "1"
     ++ str "</td><td>" ++ str "A"
     ++ str "</td><td>" ++ str "100"
     ++ str "</td></tr>" ++ [LF]).
Proof.
  apply (admin_html_row_is_bold_iff_above_1000 (new tt) bob [itemA; itemX]
           itemA eq_refl).
  simpl. now left.
Defined.
